(** * The attendance system: a shallow embedding of [attendance-system.py]

    The program is a set of request handlers over one SQLite database with
    five tables.  Every handler opens a session, adds rows or runs one query,
    commits and closes the session.  The embedding keeps that shape: the
    database is a record of five tables, a handler is a computation in a
    small state-and-exception monad over the database, and the queries are
    written with the list operations the SQL stands for.

    Conventions of the model.
    - A table is the list of its rows in rowid order, which is the order a
      table scan without ORDER BY returns on SQLite.
    - [id] columns are INTEGER PRIMARY KEY columns: an insert that gives no
      id receives the largest rowid of the table plus one, or 1 in an empty
      table.  The 63-bit ceiling of SQLite rowids is not modelled.
    - Foreign keys are declared in the schema, but the engine is created
      without the foreign_keys pragma, so SQLite does not enforce them.
    - Identifiers are integers, as the Integer columns have them.
    - The clock read by the [date] column default is an argument [now] of
      the two handlers that insert attendance rows. *)

From stdpp Require Import list sorting strings pretty.

(** ** Python values and exceptions *)

Module Py.

Inductive exn : Type :=
| IndexError.

Inductive outcome (A : Type) : Type :=
| Return (a : A)
| Raise (e : exn).
Arguments Return {A} a.
Arguments Raise {A} e.

Global Instance outcome_ret : MRet outcome := λ A a, Return a.
Global Instance outcome_bind : MBind outcome := λ A B f o,
  match o with
  | Return a => f a
  | Raise e => Raise e
  end.
Global Instance outcome_fmap : FMap outcome := λ A B f o,
  match o with
  | Return a => Return (f a)
  | Raise e => Raise e
  end.

(** [l[i]] for a non-negative index. *)
Definition getitem {A : Type} (l : list A) (i : nat) : outcome A :=
  match l !! i with
  | Some x => Return x
  | None => Raise IndexError
  end.

(** [range(start, stop, step)] for a positive step. *)
Definition range (start stop step : nat) : list nat :=
  (λ k, start + k * step) <$> seq 0 ((stop - start + (step - 1)) `div` step).

(** [enumerate(l, start=n)]. *)
Definition enumerate {A : Type} (n : nat) (l : list A) : list (nat * A) :=
  imap (λ i x, (n + i, x)) l.

(** [str(b)] for a bool. *)
Definition str_bool (b : bool) : string :=
  if b then "True" else "False".

(** [sep.join(l)]. *)
Definition join (sep : string) (l : list string) : string :=
  String.concat sep l.

Definition newline : string := String (Ascii.ascii_of_nat 10) EmptyString.

(** [s.zfill(w)] for the digits of a non-negative number. *)
Fixpoint zeros (n : nat) : string :=
  match n with
  | O => ""
  | S n' => "0" +:+ zeros n'
  end.

Definition zfill (w : nat) (s : string) : string :=
  zeros (w - String.length s) +:+ s.

(** A naive [datetime.datetime], as [utcnow()] returns it. *)
Record datetime : Type := mk_datetime {
  year : N;
  month : N;
  day : N;
  hour : N;
  minute : N;
  second : N;
  microsecond : N
}.

(** [str(d)], that is [d.isoformat(sep=' ')]: the fraction is printed only
    when the microseconds are not zero. *)
Definition str_datetime (d : datetime) : string :=
  zfill 4 (pretty (year d)) +:+ "-" +:+ zfill 2 (pretty (month d)) +:+ "-" +:+
  zfill 2 (pretty (day d)) +:+ " " +:+ zfill 2 (pretty (hour d)) +:+ ":" +:+
  zfill 2 (pretty (minute d)) +:+ ":" +:+ zfill 2 (pretty (second d)) +:+
  (if decide (microsecond d = 0%N) then ""
   else "." +:+ zfill 6 (pretty (microsecond d))).

End Py.
Import Py.

Global Instance datetime_eq_dec : EqDecision datetime.
Proof. solve_decision. Defined.

(** ** The schema: one record per SQLAlchemy model *)

Record TeacherDB : Type := mk_TeacherDB {
  TeacherDB_id : Z;
  TeacherDB_name : string;
  TeacherDB_available_sessions : Z
}.

Record SubjectDB : Type := mk_SubjectDB {
  SubjectDB_id : Z;
  SubjectDB_name : string;
  SubjectDB_teacher_id : Z
}.

Record StudentDB : Type := mk_StudentDB {
  StudentDB_id : Z;
  StudentDB_name : string;
  StudentDB_grade : string;
  StudentDB_section : string
}.

Record AttendanceDB : Type := mk_AttendanceDB {
  AttendanceDB_id : Z;
  AttendanceDB_student_id : Z;
  AttendanceDB_subject_id : Z;
  AttendanceDB_date : datetime;
  AttendanceDB_status : bool
}.

Record TimetableDB : Type := mk_TimetableDB {
  TimetableDB_id : Z;
  TimetableDB_class_name : string;
  TimetableDB_period : Z;
  TimetableDB_subject_id : Z;
  TimetableDB_teacher_id : Z
}.

Global Instance TeacherDB_eq_dec : EqDecision TeacherDB.
Proof. solve_decision. Defined.
Global Instance SubjectDB_eq_dec : EqDecision SubjectDB.
Proof. solve_decision. Defined.
Global Instance StudentDB_eq_dec : EqDecision StudentDB.
Proof. solve_decision. Defined.
Global Instance AttendanceDB_eq_dec : EqDecision AttendanceDB.
Proof. solve_decision. Defined.
Global Instance TimetableDB_eq_dec : EqDecision TimetableDB.
Proof. solve_decision. Defined.

(** The database file: the five tables created by [Base.metadata.create_all]. *)
Record database : Type := mk_database {
  teachers : list TeacherDB;
  subjects : list SubjectDB;
  students : list StudentDB;
  attendance : list AttendanceDB;
  timetables : list TimetableDB
}.

Definition empty_database : database :=
  mk_database [] [] [] [] [].

(** The rowid SQLite gives to a row inserted without an id. *)
Definition next_rowid (ids : list Z) : Z :=
  match ids with
  | [] => 1
  | i :: rest => (foldr Z.max i rest + 1)%Z
  end.

(** ** Handlers run in a state monad over the database, with exceptions *)

Definition M (A : Type) : Type := database → outcome A * database.

Global Instance M_ret : MRet M := λ A a db, (Return a, db).
Global Instance M_bind : MBind M := λ A B f m db,
  match m db with
  | (Return a, db') => f a db'
  | (Raise e, db') => (Raise e, db')
  end.

(** An exception raised by pure Python code leaves the database as it is. *)
Definition lift {A : Type} (o : outcome A) : M A := λ db, (o, db).

(** ** Session primitives

    [db.add(row); db.commit(); db.refresh(row)] on a fresh object of each
    model: the row is written at the end of its table with the id SQLite
    generates, and the refreshed object is handed back. *)

Definition insert_teacher (name : string) : M TeacherDB := λ db,
  let row := mk_TeacherDB (next_rowid (TeacherDB_id <$> teachers db)) name 9 in
  (Return row,
   mk_database (teachers db ++ [row]) (subjects db) (students db)
     (attendance db) (timetables db)).

Definition insert_subject (name : string) (teacher_id : Z) : M SubjectDB := λ db,
  let row := mk_SubjectDB (next_rowid (SubjectDB_id <$> subjects db)) name teacher_id in
  (Return row,
   mk_database (teachers db) (subjects db ++ [row]) (students db)
     (attendance db) (timetables db)).

Definition insert_student (name grade section : string) : M StudentDB := λ db,
  let row := mk_StudentDB (next_rowid (StudentDB_id <$> students db)) name grade section in
  (Return row,
   mk_database (teachers db) (subjects db) (students db ++ [row])
     (attendance db) (timetables db)).

(** The [date] column takes its default, the clock at the insert. *)
Definition insert_attendance (now : datetime) (student_id subject_id : Z)
    (status : bool) : M AttendanceDB := λ db,
  let row := mk_AttendanceDB (next_rowid (AttendanceDB_id <$> attendance db))
               student_id subject_id now status in
  (Return row,
   mk_database (teachers db) (subjects db) (students db)
     (attendance db ++ [row]) (timetables db)).

Definition insert_timetable (class_name : string) (period subject_id teacher_id : Z)
    : M TimetableDB := λ db,
  let row := mk_TimetableDB (next_rowid (TimetableDB_id <$> timetables db))
               class_name period subject_id teacher_id in
  (Return row,
   mk_database (teachers db) (subjects db) (students db)
     (attendance db) (timetables db ++ [row])).

(** [db.query(Model).all()] and its filtered forms read the database. *)
Definition query_teachers : M (list TeacherDB) := λ db, (Return (teachers db), db).

Definition query_subjects : M (list SubjectDB) := λ db, (Return (subjects db), db).

(** [db.query(StudentDB).filter(StudentDB.id == student_id).first()] *)
Definition query_student_first (student_id : Z) : M (option StudentDB) := λ db,
  (Return (head (filter (λ s, StudentDB_id s = student_id) (students db))), db).

(** [db.query(AttendanceDB).filter(AttendanceDB.subject_id == subject_id).all()] *)
Definition query_attendance_by_subject (subject_id : Z) : M (list AttendanceDB) := λ db,
  (Return (filter (λ r, AttendanceDB_subject_id r = subject_id) (attendance db)), db).

(** [db.query(SubjectDB).join(TeacherDB)
       .filter(SubjectDB.teacher_id == TeacherDB.id).all()]:
    the inner join on the foreign key [subjects.teacher_id = teachers.id],
    the WHERE clause that repeats the join condition, and the projection on
    the subject. *)
Definition join_subjects_teachers (db : database) : list (SubjectDB * TeacherDB) :=
  s ← subjects db;
  t ← filter (λ t, SubjectDB_teacher_id s = TeacherDB_id t) (teachers db);
  [(s, t)].

Definition query_subjects_join_teachers : M (list SubjectDB) := λ db,
  (Return (fst <$> filter (λ st, SubjectDB_teacher_id st.1 = TeacherDB_id st.2)
                     (join_subjects_teachers db)), db).

(** ** The admin portal *)

Definition get_teachers : M (list (Z * string)) :=
  teachers ← query_teachers;
  mret ((λ teacher, (TeacherDB_id teacher, TeacherDB_name teacher)) <$> teachers).

Definition get_subjects : M (list (Z * string)) :=
  subjects ← query_subjects;
  mret ((λ subject, (SubjectDB_id subject, SubjectDB_name subject)) <$> subjects).

(** The nine dropdowns are widgets of the page, not part of the database:
    the handler reads the teachers, and the choices it builds stay outside
    the model.  The call to the widgets' [update] is taken to return. *)
Definition update_teacher_dropdowns : M unit :=
  teachers ← get_teachers;
  mret ().

Definition create_teacher (name : string) : M string :=
  teacher ← insert_teacher name;
  _ ← update_teacher_dropdowns;
  mret ("Teacher " +:+ name +:+ " created with ID " +:+ pretty (TeacherDB_id teacher)).

Definition create_subject (name : string) (teacher_id : Z) : M string :=
  subject ← insert_subject name teacher_id;
  mret ("Subject " +:+ name +:+ " created with ID " +:+ pretty (SubjectDB_id subject)
        +:+ " and assigned to teacher ID " +:+ pretty teacher_id).

Definition create_student (name grade section : string) : M string :=
  student ← insert_student name grade section;
  mret ("Student " +:+ name +:+ " created with ID " +:+ pretty (StudentDB_id student)).

(** [[(m[i], m[i+1]) for i in range(0, len(m), 2)]] *)
Definition pair_up (m : list Z) : outcome (list (Z * Z)) :=
  mapM (λ i, a ← getitem m i; b ← getitem m (i + 1); mret (a, b))
       (range 0 (length m) 2).

(** The pairing runs before the first [db.add], so the [IndexError] of an
    odd-length input leaves the session without a pending row. *)
Definition create_timetable (class_name : string) (subject_teacher_mapping : list Z)
    : M string :=
  subject_teacher_mapping ← lift (pair_up subject_teacher_mapping);
  _ ← mapM (λ '(period, (subject_id, teacher_id)),
             insert_timetable class_name (Z.of_nat period) subject_id teacher_id)
           (enumerate 1 subject_teacher_mapping);
  mret ("Timetable created for class " +:+ class_name).

(** ** The teacher portal *)

Definition take_attendance (now : datetime) (student_id subject_id : Z) (status : bool)
    : M string :=
  attendance ← insert_attendance now student_id subject_id status;
  mret ("Attendance recorded for student ID " +:+ pretty student_id +:+
        " in subject ID " +:+ pretty subject_id +:+ " with status " +:+ str_bool status).

Definition report_line (record : AttendanceDB) : string :=
  "Student ID: " +:+ pretty (AttendanceDB_student_id record) +:+
  ", Date: " +:+ str_datetime (AttendanceDB_date record) +:+
  ", Status: " +:+ str_bool (AttendanceDB_status record).

Definition generate_report (subject_id : Z) : M string :=
  records ← query_attendance_by_subject subject_id;
  mret (join newline (report_line <$> records)).

(** ** The student portal *)

Definition schedule_line (subject : SubjectDB) : string :=
  "Subject: " +:+ SubjectDB_name subject +:+
  ", Teacher: " +:+ pretty (SubjectDB_teacher_id subject).

Definition check_schedule (student_id : Z) : M string :=
  student ← query_student_first student_id;
  match student with
  | None => mret "Student not found"
  | Some _ =>
      subjects ← query_subjects_join_teachers;
      mret (join newline (schedule_line <$> subjects))
  end.

Definition log_attendance (now : datetime) (student_id subject_id : Z) : M string :=
  attendance ← insert_attendance now student_id subject_id true;
  mret ("Attendance logged for student ID " +:+ pretty student_id +:+
        " in subject ID " +:+ pretty subject_id).

(** ** The eight handlers as one request type *)

Inductive operation : Type :=
| CreateTeacher (name : string)
| CreateSubject (name : string) (teacher_id : Z)
| CreateStudent (name grade section : string)
| CreateTimetable (class_name : string) (subject_teacher_mapping : list Z)
| TakeAttendance (now : datetime) (student_id subject_id : Z) (status : bool)
| GenerateReport (subject_id : Z)
| CheckSchedule (student_id : Z)
| LogAttendance (now : datetime) (student_id subject_id : Z).

Definition run (op : operation) : M string :=
  match op with
  | CreateTeacher name => create_teacher name
  | CreateSubject name teacher_id => create_subject name teacher_id
  | CreateStudent name grade section => create_student name grade section
  | CreateTimetable class_name m => create_timetable class_name m
  | TakeAttendance now student_id subject_id status =>
      take_attendance now student_id subject_id status
  | GenerateReport subject_id => generate_report subject_id
  | CheckSchedule student_id => check_schedule student_id
  | LogAttendance now student_id subject_id => log_attendance now student_id subject_id
  end.

(** ** The widgets of the timetable form

    [admin_portal] reads the teachers and the subjects once, when the page
    is built, and makes nine pairs of dropdowns from them; the inputs of the
    timetable form are a text box and the eighteen dropdowns. *)

Record Dropdown : Type := mk_Dropdown {
  Dropdown_choices : list (string * Z);
  Dropdown_label : string
}.

Inductive component : Type :=
| text
| number
| checkbox
| dropdown (d : Dropdown).

(** [(f"{row[1]} (ID: {row[0]})", row[0])] for a row [(id, name)]. *)
Definition choice (row : Z * string) : string * Z :=
  (row.2 +:+ " (ID: " +:+ pretty row.1 +:+ ")", row.1).

(** The choices [update_teacher_dropdowns] computes for the teacher
    dropdowns. *)
Definition teacher_choices : M (list (string * Z)) :=
  teachers ← get_teachers;
  mret (choice <$> teachers).

Definition subject_teacher_dropdowns (teachers subjects : list (Z * string))
    : list (Dropdown * Dropdown) :=
  (λ i, (mk_Dropdown (choice <$> subjects) ("Period " +:+ pretty (i + 1) +:+ " Subject"),
         mk_Dropdown (choice <$> teachers) ("Period " +:+ pretty (i + 1) +:+ " Teacher")))
    <$> range 0 9 1.

Definition timetable_inputs (teachers subjects : list (Z * string)) : list component :=
  [text] ++ (pair ← subject_teacher_dropdowns teachers subjects;
             [dropdown pair.1; dropdown pair.2]).

Definition admin_portal_timetable_inputs : M (list component) :=
  teachers ← get_teachers;
  subjects ← get_subjects;
  mret (timetable_inputs teachers subjects).

(** ** Vocabulary of the properties *)

(** The sequence cut into consecutive twos; a last element without a
    partner is left out. *)
Fixpoint pairs (m : list Z) : list (Z * Z) :=
  match m with
  | a :: b :: rest => (a, b) :: pairs rest
  | _ => []
  end.

(** The timetable rows of a list of pairs: ids count up from [first_id]
    and periods from [first_period]. *)
Definition timetable_rows (class_name : string) (first_id : Z) (first_period : nat)
    (ps : list (Z * Z)) : list TimetableDB :=
  imap (λ k p, mk_TimetableDB (first_id + Z.of_nat k) class_name
                 (Z.of_nat (first_period + k)) p.1 p.2) ps.

(** [after] is [before] with [row] appended, and the key of [row] is not a
    key of [before]. *)
Definition appends_fresh {R : Type} (key : R → Z) (before after : list R) (row : R)
    : Prop :=
  after = before ++ [row] ∧ key row ∉ key <$> before.

(** The state of the database after a handler has run. *)
Definition db_after {A : Type} (m : M A) (db : database) : database := (m db).2.

(** The primary keys of a table are in strictly increasing order: no id
    occurs twice, and the order of the list is the rowid order. *)
Definition rowids_increasing (ids : list Z) : Prop := StronglySorted Z.lt ids.

Definition wf_database (db : database) : Prop :=
  rowids_increasing (TeacherDB_id <$> teachers db) ∧
  rowids_increasing (SubjectDB_id <$> subjects db) ∧
  rowids_increasing (StudentDB_id <$> students db) ∧
  rowids_increasing (AttendanceDB_id <$> attendance db) ∧
  rowids_increasing (TimetableDB_id <$> timetables db).

(** The databases the program can be in: those a sequence of requests
    builds from the empty file. *)
Definition run_all (ops : list operation) (db : database) : database :=
  foldl (λ db op, db_after (run op) db) db ops.

Definition reachable (db : database) : Prop :=
  ∃ ops, db = run_all ops empty_database.

(** [db'] keeps every row of [db], at its place and with its fields. *)
Definition extends (db db' : database) : Prop :=
  teachers db `prefix_of` teachers db' ∧
  subjects db `prefix_of` subjects db' ∧
  students db `prefix_of` students db' ∧
  attendance db `prefix_of` attendance db' ∧
  timetables db `prefix_of` timetables db'.

Definition read_only (op : operation) : bool :=
  match op with
  | GenerateReport _ | CheckSchedule _ => true
  | _ => false
  end.

(** The (studentId, date, status) triple of an attendance row and the line
    the report prints for it. *)
Definition report_entry (record : AttendanceDB) : Z * datetime * bool :=
  (AttendanceDB_student_id record, AttendanceDB_date record, AttendanceDB_status record).

Definition entry_line (e : Z * datetime * bool) : string :=
  "Student ID: " +:+ pretty e.1.1 +:+ ", Date: " +:+ str_datetime e.1.2 +:+
  ", Status: " +:+ str_bool e.2.

(** The (subjectName, teacherId) pair of a subject and its schedule line. *)
Definition schedule_entry (subject : SubjectDB) : string * Z :=
  (SubjectDB_name subject, SubjectDB_teacher_id subject).

Definition schedule_entry_line (e : string * Z) : string :=
  "Subject: " +:+ e.1 +:+ ", Teacher: " +:+ pretty e.2.

(** The subjects whose teacher is a row of the teachers table. *)
Definition taught_subjects (db : database) : list SubjectDB :=
  filter (λ s, SubjectDB_teacher_id s ∈ TeacherDB_id <$> teachers db) (subjects db).

Definition student_exists (db : database) (student_id : Z) : Prop :=
  student_id ∈ StudentDB_id <$> students db.

(** A teacher, a subject of that teacher, a subject assigned to a teacher
    that does not exist, and two students of different classes. *)
Definition db_school : database :=
  run_all [CreateTeacher "Ada"; CreateSubject "Math" 1; CreateSubject "Art" 7;
           CreateStudent "Ana" "10" "A"; CreateStudent "Ben" "11" "B"] empty_database.

(** A handler fails silently when the caller gets an ordinary return value
    although the work was not done; an exception is not silent. *)
Definition returns_normally {A : Type} (r : outcome A * database) : Prop :=
  ∃ a, r.1 = Return a.

(** Sample data. *)
Definition class_10A : string := "10A".
Definition morning : datetime := mk_datetime 2024 3 1 8 30 0 0.

(** A subject assigned to teacher 7 in a school without teachers, and one
    student. *)
Definition db_dangling : database :=
  run_all [CreateSubject "Math" 7; CreateStudent "Ana" "10" "A"] empty_database.

(** The k-th row of a table carries the id k, counting from 1. *)
Definition dense_rowids (ids : list Z) : Prop :=
  ∀ i x, ids !! i = Some x → x = (Z.of_nat i + 1)%Z.

Definition dense_database (db : database) : Prop :=
  dense_rowids (TeacherDB_id <$> teachers db) ∧
  dense_rowids (SubjectDB_id <$> subjects db) ∧
  dense_rowids (StudentDB_id <$> students db) ∧
  dense_rowids (AttendanceDB_id <$> attendance db) ∧
  dense_rowids (TimetableDB_id <$> timetables db).

(** The pairs written out again as a flat sequence. *)
Definition flatten_pairs (ps : list (Z * Z)) : list Z :=
  p ← ps; [p.1; p.2].

(** The request inserts an attendance row of the subject. *)
Definition records_attendance_of (subject : Z) (op : operation) : bool :=
  match op with
  | TakeAttendance _ _ subject_id _ | LogAttendance _ _ subject_id =>
      bool_decide (subject_id = subject)
  | _ => false
  end.

(** Every value submitted for a dropdown is the value of one of its
    choices. *)
Definition chosen (inputs : list component) (values : list Z) : Prop :=
  Forall2 (λ c v, match c with
                  | dropdown d => v ∈ (Dropdown_choices d).*2
                  | _ => True
                  end) inputs values.


(** The (id, name) rows [get_teachers] and [get_subjects] return. *)
Definition teacher_rows (db : database) : list (Z * string) :=
  (λ teacher, (TeacherDB_id teacher, TeacherDB_name teacher)) <$> teachers db.

Definition subject_rows (db : database) : list (Z * string) :=
  (λ subject, (SubjectDB_id subject, SubjectDB_name subject)) <$> subjects db.

(** One value for each of the eighteen dropdowns. *)
Definition week_values : list Z :=
  [1; 1; 2; 1; 1; 1; 2; 1; 1; 1; 2; 1; 1; 1; 2; 1; 1; 1]%Z.

(** * Properties *)

(** ** Row ids *)

Lemma foldr_max_ge (a : Z) (l : list Z) :
  (a ≤ foldr Z.max a l)%Z ∧ ∀ x, x ∈ l → (x ≤ foldr Z.max a l)%Z.
Proof.
  induction l as [|y l [IHa IHl]]; cbn [foldr].
  - split; [lia | intros x Hx; inv Hx].
  - split; [lia |]. intros x [-> | Hx]%elem_of_cons; [lia |].
    specialize (IHl x Hx). lia.
Qed.

Lemma next_rowid_gt (ids : list Z) (i : Z) : i ∈ ids → (i < next_rowid ids)%Z.
Proof.
  destruct ids as [|a l]; intros Hi; [inv Hi |]. cbn [next_rowid].
  destruct (foldr_max_ge a l) as [Ha Hl].
  apply elem_of_cons in Hi as [-> | Hi]; [lia |]. specialize (Hl i Hi). lia.
Qed.

Lemma next_rowid_fresh (ids : list Z) : next_rowid ids ∉ ids.
Proof. intros Hin. apply next_rowid_gt in Hin. lia. Qed.

Lemma foldr_max_snoc (a x : Z) (l : list Z) :
  foldr Z.max a (l ++ [x]) = Z.max x (foldr Z.max a l).
Proof. induction l as [|y l IH]; cbn [foldr app]; [done |]. rewrite IH. lia. Qed.

Lemma next_rowid_snoc (ids : list Z) :
  next_rowid (ids ++ [next_rowid ids]) = (next_rowid ids + 1)%Z.
Proof.
  destruct ids as [|a l]; [done |].
  cbn [next_rowid app]. rewrite foldr_max_snoc. lia.
Qed.

Lemma rowids_increasing_snoc (ids : list Z) :
  rowids_increasing ids → rowids_increasing (ids ++ [next_rowid ids]).
Proof.
  intros Hs. apply StronglySorted_app_2; [| done | repeat constructor].
  intros x1 x2 H1 H2. apply list_elem_of_singleton in H2 as ->.
  by apply next_rowid_gt.
Qed.

Lemma rowids_increasing_NoDup (ids : list Z) : rowids_increasing ids → NoDup ids.
Proof.
  induction 1 as [|a l Hs IH Hall]; constructor; [| done].
  intros Hin. rewrite Forall_forall in Hall. specialize (Hall a Hin). lia.
Qed.

(** ** The pairing of the flat sequence *)

Lemma list_ind2 {A : Type} (P : list A → Prop) :
  P [] → (∀ a, P [a]) → (∀ a b l, P l → P (a :: b :: l)) → ∀ l, P l.
Proof.
  intros Hnil Hone Hstep.
  assert (∀ l, P l ∧ ∀ a, P (a :: l)) as Hboth; [| intros l; apply Hboth].
  induction l as [|b l [IH1 IH2]]; split; auto.
Qed.

Lemma outcome_mapM_fmap {A B C : Type} (f : B → outcome C) (g : A → B) (l : list A) :
  mapM f (g <$> l) = mapM (f ∘ g) l.
Proof. induction l as [|x l IH]; [done |]. cbn [fmap list_fmap mapM]. by rewrite IH. Qed.

Lemma outcome_mapM_ext {A B : Type} (f g : A → outcome B) (l : list A) :
  (∀ x, f x = g x) → mapM f l = mapM g l.
Proof.
  intros Hfg. induction l as [|x l IH]; [done |].
  cbn [mapM]. by rewrite Hfg, IH.
Qed.

Lemma range_0_SS (n : nat) :
  range 0 (S (S n)) 2 = 0 :: ((λ i, i + 2) <$> range 0 n 2).
Proof.
  unfold range.
  replace (S (S n) - 0 + (2 - 1)) with (n - 0 + (2 - 1) + 1 * 2) by lia.
  rewrite Nat.div_add by lia.
  rewrite Nat.add_1_r. cbn [seq fmap list_fmap]. f_equal.
  rewrite <- fmap_S_seq, <- !list_fmap_compose.
  apply list_fmap_ext. intros _ k _. simpl. lia.
Qed.

Lemma pair_up_nil : pair_up [] = Return [].
Proof. reflexivity. Qed.

Lemma pair_up_one (a : Z) : pair_up [a] = Raise IndexError.
Proof. reflexivity. Qed.

Lemma pair_up_cons2 (a b : Z) (m : list Z) :
  pair_up (a :: b :: m) = (λ ps, (a, b) :: ps) <$> pair_up m.
Proof.
  unfold pair_up. cbn [length]. rewrite range_0_SS. cbn [mapM].
  rewrite outcome_mapM_fmap.
  rewrite (outcome_mapM_ext _
    (λ i, a' ← getitem m i; b' ← getitem m (i + 1); mret (a', b'))).
  - cbn. by destruct (mapM _ _).
  - intros i. unfold compose, getitem.
    replace (i + 2) with (S (S i)) by lia.
    replace (S (S i) + 1) with (S (S (i + 1))) by lia. done.
Qed.

Lemma pair_up_even (m : list Z) :
  length m `mod` 2 = 0 → pair_up m = Return (pairs m).
Proof.
  induction m as [| a | a b m IH] using list_ind2; [done | done |].
  intros Hlen. rewrite pair_up_cons2, IH; [done |].
  cbn [length] in Hlen. replace (S (S (length m))) with (length m + 1 * 2) in Hlen by lia.
  by rewrite Nat.Div0.mod_add in Hlen.
Qed.

Lemma pair_up_odd (m : list Z) :
  length m `mod` 2 = 1 → pair_up m = Raise IndexError.
Proof.
  induction m as [| a | a b m IH] using list_ind2; [done | done |].
  intros Hlen. rewrite pair_up_cons2, IH; [done |].
  cbn [length] in Hlen. replace (S (S (length m))) with (length m + 1 * 2) in Hlen by lia.
  by rewrite Nat.Div0.mod_add in Hlen.
Qed.

Lemma length_pairs (m : list Z) : length (pairs m) = length m `div` 2.
Proof.
  induction m as [| a | a b m IH] using list_ind2; [done | done |].
  cbn [pairs length]. rewrite IH.
  replace (S (S (length m))) with (length m + 1 * 2) by lia.
  rewrite Nat.div_add by lia. lia.
Qed.

Lemma lookup_pairs (m : list Z) (k : nat) (a b : Z) :
  m !! (2 * k) = Some a → m !! (2 * k + 1) = Some b → pairs m !! k = Some (a, b).
Proof.
  revert k. induction m as [| x | x y m IH] using list_ind2; intros k Ha Hb.
  - done.
  - destruct k; [done |]. replace (2 * S k) with (S (S (2 * k))) in Ha by lia. done.
  - destruct k as [|k].
    + cbn in Ha, Hb. by simplify_eq.
    + replace (2 * S k) with (S (S (2 * k))) in Ha by lia.
      replace (2 * S k + 1) with (S (S (2 * k + 1))) in Hb by lia.
      cbn [pairs]. rewrite lookup_cons. by apply IH.
Qed.

(** ** Writing the timetable rows *)

Lemma timetable_rows_cons (cn : string) (first_id : Z) (n : nat) (p : Z * Z)
    (ps : list (Z * Z)) :
  timetable_rows cn first_id n (p :: ps) =
  mk_TimetableDB first_id cn (Z.of_nat n) p.1 p.2
    :: timetable_rows cn (first_id + 1) (S n) ps.
Proof.
  unfold timetable_rows. rewrite imap_cons. f_equal.
  - f_equal; [lia | f_equal; lia].
  - apply imap_ext. intros k q _. unfold compose. f_equal; [lia | f_equal; lia].
Qed.

Lemma insert_timetable_rows (cn : string) (ps : list (Z * Z)) (n : nat) (db : database) :
  mapM (λ '(period, (subject_id, teacher_id)),
         insert_timetable cn (Z.of_nat period) subject_id teacher_id)
       (enumerate n ps) db
  = let rows := timetable_rows cn (next_rowid (TimetableDB_id <$> timetables db)) n ps in
    (Return rows,
     mk_database (teachers db) (subjects db) (students db) (attendance db)
       (timetables db ++ rows)).
Proof.
  revert n db. induction ps as [|[s t] ps IH]; intros n db.
  - cbn. rewrite app_nil_r. by destruct db.
  - unfold enumerate. rewrite imap_cons.
    rewrite (imap_ext _ (λ i x, (S n + i, x))) by (intros; unfold compose; f_equal; lia).
    fold (enumerate (S n) ps). cbn [mapM].
    unfold mbind at 1, M_bind at 1. unfold insert_timetable at 1.
    unfold mbind at 1, M_bind at 1. rewrite IH.
    cbn [timetables teachers subjects students attendance].
    rewrite fmap_app. cbn [fmap list_fmap TimetableDB_id]. rewrite next_rowid_snoc.
    rewrite timetable_rows_cons. cbn [fst snd].
    replace (n + 0) with n by lia.
    unfold mret, M_ret. by rewrite <- app_assoc.
Qed.

Lemma create_timetable_even (cn : string) (m : list Z) (db : database) :
  length m `mod` 2 = 0 →
  create_timetable cn m db =
  (Return ("Timetable created for class " +:+ cn),
   mk_database (teachers db) (subjects db) (students db) (attendance db)
     (timetables db ++
      timetable_rows cn (next_rowid (TimetableDB_id <$> timetables db)) 1 (pairs m))).
Proof.
  intros Hlen. unfold create_timetable.
  unfold mbind at 1, M_bind at 1. unfold lift. rewrite (pair_up_even m Hlen).
  unfold mbind at 1, M_bind at 1. by rewrite insert_timetable_rows.
Qed.

Lemma create_timetable_odd (cn : string) (m : list Z) (db : database) :
  length m `mod` 2 = 1 → create_timetable cn m db = (Raise IndexError, db).
Proof.
  intros Hlen. unfold create_timetable.
  unfold mbind at 1, M_bind at 1. unfold lift. by rewrite (pair_up_odd m Hlen).
Qed.

Lemma lookup_timetable_rows (cn : string) (first_id : Z) (n : nat) (ps : list (Z * Z))
    (k : nat) (a b : Z) :
  ps !! k = Some (a, b) →
  timetable_rows cn first_id n ps !! k =
  Some (mk_TimetableDB (first_id + Z.of_nat k) cn (Z.of_nat (n + k)) a b).
Proof. intros Hk. unfold timetable_rows. by rewrite list_lookup_imap, Hk. Qed.

Lemma length_timetable_rows (cn : string) (first_id : Z) (n : nat) (ps : list (Z * Z)) :
  length (timetable_rows cn first_id n ps) = length ps.
Proof. apply length_imap. Qed.

Lemma create_timetable_unfold (cn : string) (m : list Z) (db : database) :
  create_timetable cn m db =
  match pair_up m with
  | Return ps =>
      (Return ("Timetable created for class " +:+ cn),
       mk_database (teachers db) (subjects db) (students db) (attendance db)
         (timetables db ++
          timetable_rows cn (next_rowid (TimetableDB_id <$> timetables db)) 1 ps))
  | Raise e => (Raise e, db)
  end.
Proof.
  unfold create_timetable. unfold mbind at 1, M_bind at 1. unfold lift.
  destruct (pair_up m) as [ps | e]; [| done].
  unfold mbind at 1, M_bind at 1. by rewrite insert_timetable_rows.
Qed.

Lemma rowids_increasing_rows (cn : string) (ps : list (Z * Z)) (n : nat) (ids : list Z) :
  rowids_increasing ids →
  rowids_increasing (ids ++ (TimetableDB_id <$> timetable_rows cn (next_rowid ids) n ps)).
Proof.
  revert n ids. induction ps as [|p ps IH]; intros n ids Hids.
  - cbn. by rewrite app_nil_r.
  - rewrite timetable_rows_cons. cbn [fmap list_fmap TimetableDB_id].
    rewrite <- next_rowid_snoc, cons_middle, app_assoc.
    apply IH. by apply rowids_increasing_snoc.
Qed.

Lemma next_rowid_rows (cn : string) (ps : list (Z * Z)) (n : nat) (ids : list Z) :
  next_rowid (ids ++ (TimetableDB_id <$> timetable_rows cn (next_rowid ids) n ps))
  = (next_rowid ids + Z.of_nat (length ps))%Z.
Proof.
  revert n ids. induction ps as [|p ps IH]; intros n ids.
  - cbn. rewrite app_nil_r. lia.
  - rewrite timetable_rows_cons. cbn [fmap list_fmap TimetableDB_id].
    rewrite <- next_rowid_snoc, cons_middle, app_assoc, IH, next_rowid_snoc.
    cbn [length]. lia.
Qed.

(** ** Well-formedness is an invariant of the handlers *)

Lemma empty_database_wf : wf_database empty_database.
Proof. repeat split; constructor. Qed.

Ltac unfold_handler :=
  unfold db_after, create_teacher, create_subject, create_student, take_attendance,
    log_attendance, generate_report, update_teacher_dropdowns, get_teachers,
    get_subjects, insert_teacher, insert_subject, insert_student, insert_attendance,
    query_teachers, query_subjects, query_attendance_by_subject, mbind, M_bind,
    mret, M_ret;
  cbn [fst snd teachers subjects students attendance timetables].

Ltac table_simpl :=
  cbn [fst snd teachers subjects students attendance timetables];
  rewrite ?fmap_app;
  cbn [fmap list_fmap TeacherDB_id SubjectDB_id StudentDB_id AttendanceDB_id
       TimetableDB_id].

Lemma run_wf (op : operation) (db : database) :
  wf_database db → wf_database (db_after (run op) db).
Proof.
  intros (Ht & Hs & Hst & Ha & Htt).
  destruct op as [name | name tid | name grade section | cn m | now sid subj status
                 | subj | sid | now sid subj]; cbn [run].
  - unfold_handler. repeat split; try done.
    table_simpl. by apply rowids_increasing_snoc.
  - unfold_handler. repeat split; try done.
    table_simpl. by apply rowids_increasing_snoc.
  - unfold_handler. repeat split; try done.
    table_simpl. by apply rowids_increasing_snoc.
  - unfold db_after. rewrite create_timetable_unfold.
    destruct (pair_up m) as [ps | e]; [| done].
    repeat split; try done. cbn [snd timetables]. rewrite fmap_app.
    by apply rowids_increasing_rows.
  - unfold_handler. repeat split; try done.
    table_simpl. by apply rowids_increasing_snoc.
  - done.
  - unfold db_after, check_schedule, mbind, M_bind, query_student_first.
    by destruct (head _).
  - unfold_handler. repeat split; try done.
    table_simpl. by apply rowids_increasing_snoc.
Qed.

Lemma run_all_wf (ops : list operation) (db : database) :
  wf_database db → wf_database (run_all ops db).
Proof.
  revert db. induction ops as [|op ops IH]; intros db Hwf; [done |].
  cbn [run_all foldl]. apply IH. by apply run_wf.
Qed.

Lemma reachable_wf (db : database) : reachable db → wf_database db.
Proof. intros [ops ->]. apply run_all_wf, empty_database_wf. Qed.

Example db_school_reachable : reachable db_school.
Proof. by eexists. Qed.

(** ** Timetables *)

(** C1: on a flat sequence of even length, [create_timetable] pairs the
    sequence by consecutive twos and appends one timetable row per pair, in
    order: the k-th new row (counting from 0) has period k+1, the given class
    name, and the elements at positions 2k and 2k+1 as its subject and its
    teacher; the other tables are untouched.  On "10A" and 1,1,2,3 the empty
    database receives exactly two rows, of periods 1 and 2 and class "10A". *)
Theorem create_timetable_rows (class_name : string) (m : list Z) (db : database) :
  length m `mod` 2 = 0 →
  ∃ rows : list TimetableDB,
    create_timetable class_name m db =
      (Return ("Timetable created for class " +:+ class_name),
       mk_database (teachers db) (subjects db) (students db) (attendance db)
         (timetables db ++ rows)) ∧
    length rows = length m `div` 2 ∧
    (∀ k, k < length m `div` 2 →
       ∃ a b, m !! (2 * k) = Some a ∧ m !! (2 * k + 1) = Some b ∧
         rows !! k =
         Some (mk_TimetableDB
                 (next_rowid (TimetableDB_id <$> timetables db) + Z.of_nat k)
                 class_name (Z.of_nat (k + 1)) a b)) ∧
    timetables (db_after (create_timetable class_10A [1; 1; 2; 3]%Z) empty_database) =
      [mk_TimetableDB 1 "10A" 1 1 1; mk_TimetableDB 2 "10A" 2 2 3].
Proof.
  intros Hlen.
  exists (timetable_rows class_name (next_rowid (TimetableDB_id <$> timetables db)) 1
            (pairs m)).
  split; [by apply create_timetable_even |].
  split; [by rewrite length_timetable_rows, length_pairs |].
  split; [| reflexivity].
  intros k Hk.
  pose proof (Nat.div_mod_eq (length m) 2) as Hdiv. rewrite Hlen in Hdiv.
  destruct (lookup_lt_is_Some_2 m (2 * k)) as [a Ha]; [lia |].
  destruct (lookup_lt_is_Some_2 m (2 * k + 1)) as [b Hb]; [lia |].
  exists a, b. split; [done |]. split; [done |].
  rewrite (lookup_timetable_rows _ _ _ _ _ a b) by by apply lookup_pairs.
  do 3 f_equal. lia.
Qed.

Lemma create_timetable_rows_10A :
  ∃ rows : list TimetableDB,
    create_timetable class_10A [1; 1; 2; 3]%Z empty_database =
      (Return ("Timetable created for class " +:+ class_10A),
       mk_database (teachers empty_database) (subjects empty_database)
         (students empty_database) (attendance empty_database)
         (timetables empty_database ++ rows)) ∧
    length rows = length [1; 1; 2; 3]%Z `div` 2 ∧
    (∀ k, k < length [1; 1; 2; 3]%Z `div` 2 →
       ∃ a b, [1; 1; 2; 3]%Z !! (2 * k) = Some a ∧
         [1; 1; 2; 3]%Z !! (2 * k + 1) = Some b ∧
         rows !! k =
         Some (mk_TimetableDB
                 (next_rowid (TimetableDB_id <$> timetables empty_database) + Z.of_nat k)
                 class_10A (Z.of_nat (k + 1)) a b)) ∧
    timetables (db_after (create_timetable class_10A [1; 1; 2; 3]%Z) empty_database) =
      [mk_TimetableDB 1 "10A" 1 1 1; mk_TimetableDB 2 "10A" 2 2 3].
Proof.
  apply (create_timetable_rows class_10A [1; 1; 2; 3]%Z empty_database).
  reflexivity.
Defined.

(** C7, the claim as worded fails: on the three values 1,1,2 the handler
    does not return at all, it raises [IndexError]; the failure is an
    exception the caller sees, and the database is the one before the call. *)
Lemma create_timetable_odd_not_silent :
  create_timetable class_10A [1; 1; 2]%Z empty_database = (Raise IndexError, empty_database) ∧
  ¬ returns_normally (create_timetable class_10A [1; 1; 2]%Z empty_database).
Proof.
  split; [reflexivity |]. intros [msg Hmsg]. discriminate Hmsg.
Qed.

(** C7, amended: on a flat sequence of odd length the last index the
    pairing visits is the last position of the sequence, the access to its
    partner is out of bounds, and [create_timetable] raises [IndexError]
    before any row is added: the database is unchanged. *)
Theorem create_timetable_odd_raises (class_name : string) (m : list Z) (db : database) :
  length m `mod` 2 = 1 →
  length m - 1 ∈ range 0 (length m) 2 ∧
  is_Some (m !! (length m - 1)) ∧
  getitem m (length m - 1 + 1) = Raise IndexError ∧
  create_timetable class_name m db = (Raise IndexError, db).
Proof.
  intros Hlen.
  pose proof (Nat.div_mod_eq (length m) 2) as Hdiv. rewrite Hlen in Hdiv.
  split; [| split; [| split]].
  - unfold range. apply list_elem_of_fmap. exists (length m `div` 2).
    split; [lia |]. apply elem_of_seq.
    replace (length m - 0 + (2 - 1)) with (length m `div` 2 * 2 + 1 * 2) by lia.
    rewrite Nat.div_add by lia. rewrite Nat.div_mul by lia. lia.
  - apply lookup_lt_is_Some_2. lia.
  - unfold getitem. rewrite lookup_ge_None_2; [done | lia].
  - by apply create_timetable_odd.
Qed.

Lemma create_timetable_odd_raises_3 :
  length [1; 1; 2]%Z - 1 ∈ range 0 (length [1; 1; 2]%Z) 2 ∧
  is_Some ([1; 1; 2]%Z !! (length [1; 1; 2]%Z - 1)) ∧
  getitem [1; 1; 2]%Z (length [1; 1; 2]%Z - 1 + 1) = Raise IndexError ∧
  create_timetable class_10A [1; 1; 2]%Z empty_database = (Raise IndexError, empty_database).
Proof.
  apply (create_timetable_odd_raises class_10A [1; 1; 2]%Z empty_database).
  reflexivity.
Defined.

(** ** Generated ids *)











(** ** Attendance *)

(** C3: [log_attendance] leaves the database in the state [take_attendance]
    with status true leaves it in: the attendance table grows by one row,
    for the given student and subject at the given time, with status true,
    and both handlers return. *)
Theorem log_attendance_is_take_attendance_true (now : datetime)
    (student_id subject_id : Z) (db : database) :
  db_after (log_attendance now student_id subject_id) db =
    db_after (take_attendance now student_id subject_id true) db ∧
  (∃ row,
     appends_fresh AttendanceDB_id (attendance db)
       (attendance (db_after (log_attendance now student_id subject_id) db)) row ∧
     AttendanceDB_status row = true ∧
     AttendanceDB_student_id row = student_id ∧
     AttendanceDB_subject_id row = subject_id ∧
     AttendanceDB_date row = now) ∧
  returns_normally (log_attendance now student_id subject_id db) ∧
  returns_normally (take_attendance now student_id subject_id true db).
Proof.
  split; [reflexivity |]. split.
  - unfold_handler. eexists. unfold appends_fresh.
    repeat split; try reflexivity. apply next_rowid_fresh.
  - split; eexists; reflexivity.
Qed.

Lemma report_line_entry (record : AttendanceDB) :
  report_line record = entry_line (report_entry record).
Proof. reflexivity. Qed.

Lemma generate_report_unfold (subject_id : Z) (db : database) :
  generate_report subject_id db =
  (Return (join newline
     (entry_line <$> (report_entry <$>
        filter (λ r, AttendanceDB_subject_id r = subject_id) (attendance db)))), db).
Proof.
  unfold_handler. do 3 f_equal. rewrite <- list_fmap_compose.
  apply list_fmap_ext. intros _ r _. apply report_line_entry.
Qed.

(** C5: [generate_report] prints, one line per entry, the (studentId, date,
    status) triples of the attendance rows of the subject and of no other
    row, in the order of the table, which is the order of insertion: a row
    recorded for the subject becomes the last entry of its report.  After
    [take_attendance] for student 5 in subject 2 with status true, the
    report of subject 2 has an entry for student 5 with status true. *)
Theorem generate_report_entries (subject_id : Z) (db : database) :
  ∃ records : list AttendanceDB,
    generate_report subject_id db =
      (Return (join newline (entry_line <$> (report_entry <$> records))), db) ∧
    records = filter (λ r, AttendanceDB_subject_id r = subject_id) (attendance db) ∧
    records `sublist_of` attendance db ∧
    (∀ r, r ∈ records ↔ r ∈ attendance db ∧ AttendanceDB_subject_id r = subject_id) ∧
    (∀ now student_id status,
       let db' := db_after (take_attendance now student_id subject_id status) db in
       generate_report subject_id db' =
         (Return (join newline
            (entry_line <$> (report_entry <$> records) ++ [(student_id, now, status)])),
          db')) ∧
    (∀ now,
       let db' := db_after (take_attendance now 5 2 true) db in
       ∃ entries, generate_report 2 db' =
         (Return (join newline (entry_line <$> entries)), db') ∧
         (5%Z, now, true) ∈ entries).
Proof.
  eexists. split; [apply generate_report_unfold |]. split; [reflexivity |].
  split; [apply sublist_filter |].
  split; [intros r; rewrite list_elem_of_filter; tauto |].
  split.
  - intros now student_id status db'. subst db'.
    rewrite generate_report_unfold. unfold_handler.
    rewrite filter_app, fmap_app. rewrite filter_cons_True by done.
    reflexivity.
  - intros now db'. subst db'. eexists.
    split; [apply generate_report_unfold |]. unfold_handler.
    rewrite filter_app, fmap_app. rewrite filter_cons_True by done.
    apply elem_of_app. right. cbn. apply list_elem_of_singleton. reflexivity.
Qed.

Example generate_report_after_take_attendance :
  generate_report 2 (db_after (take_attendance morning 5 2 true) empty_database) =
  (Return "Student ID: 5, Date: 2024-03-01 08:30:00, Status: True",
   mk_database [] [] [] [mk_AttendanceDB 1 5 2 morning true] []).
Proof. reflexivity. Qed.

(** C9: two runs of [generate_report] for the same subject, one after the
    other, return the same text and leave the database as it was. *)
Theorem generate_report_twice (subject_id : Z) (db : database) :
  ∃ report : string,
    (r1 ← generate_report subject_id;
     r2 ← generate_report subject_id;
     mret (r1, r2)) db = (Return (report, report), db) ∧
    generate_report subject_id db = (Return report, db).
Proof. eexists. split; reflexivity. Qed.

(** ** The schedule *)

Lemma query_student_first_None (student_id : Z) (db : database) :
  ¬ student_exists db student_id →
  head (filter (λ s, StudentDB_id s = student_id) (students db)) = None.
Proof.
  intros Hnone. apply head_None.
  destruct (filter _ _) as [|s l] eqn:Hf; [done |]. exfalso. apply Hnone.
  assert (s ∈ filter (λ s, StudentDB_id s = student_id) (students db)) as Hs
    by (rewrite Hf; left).
  apply list_elem_of_filter in Hs as [<- Hs].
  by apply list_elem_of_fmap_2.
Qed.

Lemma query_student_first_Some (student_id : Z) (db : database) :
  student_exists db student_id →
  ∃ s, head (filter (λ s, StudentDB_id s = student_id) (students db)) = Some s.
Proof.
  intros (s & -> & Hs)%list_elem_of_fmap.
  assert (s ∈ filter (λ s', StudentDB_id s' = StudentDB_id s) (students db)) as Hin
    by (by apply list_elem_of_filter).
  destruct (filter _ _) as [|s' l]; [by apply elem_of_nil in Hin |].
  by exists s'.
Qed.

(** A key that occurs once selects one row. *)
Lemma filter_teacher_id (tid : Z) (ts : list TeacherDB) :
  NoDup (TeacherDB_id <$> ts) →
  ((tid ∉ TeacherDB_id <$> ts) ∧ filter (λ t, tid = TeacherDB_id t) ts = []) ∨
  (tid ∈ TeacherDB_id <$> ts ∧
   ∃ t, TeacherDB_id t = tid ∧ filter (λ t, tid = TeacherDB_id t) ts = [t]).
Proof.
  induction ts as [|t ts IH]; intros Hnd.
  - left. split; [apply not_elem_of_nil | done].
  - cbn [fmap list_fmap] in Hnd. apply NoDup_cons in Hnd as [Hnotin Hnd].
    destruct (decide (tid = TeacherDB_id t)) as [-> | Hne].
    + right. split; [left |]. exists t. split; [done |].
      rewrite filter_cons_True by done. f_equal.
      destruct (IH Hnd) as [[_ Hnil] | [Hin _]]; [done | by destruct Hnotin].
    + rewrite filter_cons_False by done.
      destruct (IH Hnd) as [[Hout Hnil] | [Hin Hone]].
      * left. split; [| done]. cbn [fmap list_fmap].
        by intros [? | ?]%elem_of_cons.
      * right. split; [by right | done].
Qed.

Lemma join_is_taught_subjects (ss : list SubjectDB) (ts : list TeacherDB) :
  NoDup (TeacherDB_id <$> ts) →
  fst <$> filter (λ st : SubjectDB * TeacherDB,
                    SubjectDB_teacher_id st.1 = TeacherDB_id st.2)
            (s ← ss; t ← filter (λ t, SubjectDB_teacher_id s = TeacherDB_id t) ts; [(s, t)])
  = filter (λ s, SubjectDB_teacher_id s ∈ TeacherDB_id <$> ts) ss.
Proof.
  intros Hnd. induction ss as [|s ss IH]; [done |].
  rewrite bind_cons, filter_app, fmap_app, IH. clear IH.
  destruct (filter_teacher_id (SubjectDB_teacher_id s) ts Hnd)
    as [[Hout ->] | [Hin (t & Ht & ->)]].
  - by rewrite filter_cons_False.
  - rewrite (filter_cons_True (λ s, SubjectDB_teacher_id s ∈ _)) by done.
    cbn [mbind list_bind app]. rewrite filter_cons_True by done. done.
Qed.

Lemma check_schedule_found (student_id : Z) (db : database) :
  wf_database db → student_exists db student_id →
  check_schedule student_id db =
  (Return (join newline (schedule_line <$> taught_subjects db)), db).
Proof.
  intros (Ht & _) [s Hs]%query_student_first_Some.
  unfold check_schedule, query_student_first. unfold mbind at 1, M_bind at 1.
  rewrite Hs. unfold query_subjects_join_teachers, join_subjects_teachers.
  unfold mbind at 1, M_bind at 1, mret, M_ret.
  rewrite join_is_taught_subjects by by apply rowids_increasing_NoDup.
  done.
Qed.

(** C4: for an id that no student row carries, [check_schedule] answers
    with the text "Student not found" and the database is the one before
    the call. *)
Theorem check_schedule_not_found (student_id : Z) (db : database) :
  ¬ student_exists db student_id →
  check_schedule student_id db = (Return "Student not found", db).
Proof.
  intros Hnone. unfold check_schedule, query_student_first.
  unfold mbind, M_bind. by rewrite query_student_first_None.
Qed.

Lemma check_schedule_not_found_999 :
  check_schedule 999 db_school = (Return "Student not found", db_school).
Proof.
  apply (check_schedule_not_found 999 db_school).
  vm_compute. intros Hin. repeat (apply elem_of_cons in Hin as [Hin | Hin]; [discriminate |]).
  by apply elem_of_nil in Hin.
Defined.

(** C2, the claim as worded fails: with one student and one subject whose
    teacher id names no teacher, the schedule of the student is empty
    although the subjects table is not. *)
Lemma check_schedule_omits_dangling_subject :
  student_exists db_dangling 1 ∧
  subjects db_dangling = [mk_SubjectDB 1 "Math" 7] ∧
  check_schedule 1 db_dangling = (Return "", db_dangling) ∧
  check_schedule 1 db_dangling ≠
    (Return (join newline (schedule_line <$> subjects db_dangling)), db_dangling).
Proof.
  split; [vm_compute; left |]. split; [reflexivity |]. split; [reflexivity |].
  vm_compute. discriminate.
Qed.

(** C2, amended: for a student that exists, in a database whose primary
    keys are in order, [check_schedule] lists the (subjectName, teacherId)
    pairs of the subjects whose teacher id is the id of a teacher row, in
    table order; the student's grade and section play no part, every
    existing student gets the same answer, and the database is unchanged. *)
Theorem check_schedule_taught (student_id : Z) (db : database) :
  wf_database db → student_exists db student_id →
  check_schedule student_id db =
    (Return (join newline
       (schedule_entry_line <$> (schedule_entry <$> taught_subjects db))), db) ∧
  (∀ s, s ∈ taught_subjects db ↔
        s ∈ subjects db ∧ SubjectDB_teacher_id s ∈ TeacherDB_id <$> teachers db) ∧
  taught_subjects db `sublist_of` subjects db ∧
  (∀ other, student_exists db other →
            check_schedule other db = check_schedule student_id db).
Proof.
  intros Hwf Hex. split; [| split; [| split]].
  - rewrite check_schedule_found by done. do 3 f_equal.
    by rewrite <- list_fmap_compose.
  - intros s. unfold taught_subjects. rewrite list_elem_of_filter. tauto.
  - apply sublist_filter.
  - intros other Hother. by rewrite !check_schedule_found.
Qed.

Lemma check_schedule_taught_school :
  check_schedule 2 db_school =
    (Return (join newline
       (schedule_entry_line <$> (schedule_entry <$> taught_subjects db_school))),
     db_school) ∧
  (∀ s, s ∈ taught_subjects db_school ↔
        s ∈ subjects db_school ∧
        SubjectDB_teacher_id s ∈ TeacherDB_id <$> teachers db_school) ∧
  taught_subjects db_school `sublist_of` subjects db_school ∧
  (∀ other, student_exists db_school other →
            check_schedule other db_school = check_schedule 2 db_school).
Proof.
  apply (check_schedule_taught 2 db_school).
  - vm_compute. repeat split; repeat constructor.
  - vm_compute. right. left.
Defined.

(** ** Subjects and their teacher *)

(** C8: [create_subject] returns for every name and every teacher id,
    whatever the teachers table holds: it appends the subject row with that
    teacher id under a new id and reports that id.  In the empty database,
    where teacher 7 cannot exist, the subject assigned to teacher 7 is
    stored. *)
Theorem create_subject_unchecked (name : string) (teacher_id : Z) (db : database) :
  ∃ row : SubjectDB,
    create_subject name teacher_id db =
      (Return ("Subject " +:+ name +:+ " created with ID " +:+ pretty (SubjectDB_id row)
               +:+ " and assigned to teacher ID " +:+ pretty teacher_id),
       mk_database (teachers db) (subjects db ++ [row]) (students db)
         (attendance db) (timetables db)) ∧
    SubjectDB_name row = name ∧
    SubjectDB_teacher_id row = teacher_id ∧
    (SubjectDB_id row ∉ SubjectDB_id <$> subjects db) ∧
    create_subject "Math" 7 empty_database =
      (Return "Subject Math created with ID 1 and assigned to teacher ID 7",
       mk_database [] [mk_SubjectDB 1 "Math" 7] [] [] []).
Proof.
  eexists. split; [reflexivity |]. cbn [SubjectDB_name SubjectDB_teacher_id SubjectDB_id].
  repeat split. apply next_rowid_fresh.
Qed.

(** ** Rows are never changed or removed *)

Lemma extends_refl (db : database) : extends db db.
Proof. by repeat split. Qed.

Lemma extends_trans (db1 db2 db3 : database) :
  extends db1 db2 → extends db2 db3 → extends db1 db3.
Proof.
  intros (?&?&?&?&?) (?&?&?&?&?). repeat split; by etrans.
Qed.

Lemma run_extends (op : operation) (db : database) :
  extends db (db_after (run op) db).
Proof.
  destruct op as [name | name tid | name grade section | cn m | now sid subj status
                 | subj | sid | now sid subj]; cbn [run].
  - unfold_handler. repeat split; try done. by apply prefix_app_r.
  - unfold_handler. repeat split; try done. by apply prefix_app_r.
  - unfold_handler. repeat split; try done. by apply prefix_app_r.
  - unfold db_after. rewrite create_timetable_unfold.
    destruct (pair_up m) as [ps | e]; [| apply extends_refl].
    repeat split; try done. by apply prefix_app_r.
  - unfold_handler. repeat split; try done. by apply prefix_app_r.
  - apply extends_refl.
  - unfold db_after, check_schedule, mbind, M_bind, query_student_first.
    destruct (head _); apply extends_refl.
  - unfold_handler. repeat split; try done. by apply prefix_app_r.
Qed.

Lemma run_read_only (op : operation) (db : database) :
  read_only op = true → db_after (run op) db = db.
Proof.
  destruct op; try discriminate; intros _; [done |].
  unfold db_after. cbn [run].
  unfold check_schedule, mbind, M_bind, query_student_first.
  by destruct (head _).
Qed.

(** C10: whatever request is served, every row of every table is after the
    call where it was before it, with the same fields: each table of the
    database before the call is a prefix of the table after it, so a handler
    can only add rows at the end; the two reading handlers,
    [generate_report] and [check_schedule], add none.  The same holds for
    any sequence of requests. *)
Theorem handlers_only_insert (op : operation) (db : database) :
  extends db (db_after (run op) db) ∧
  (∀ i r, teachers db !! i = Some r → teachers (db_after (run op) db) !! i = Some r) ∧
  (∀ i r, subjects db !! i = Some r → subjects (db_after (run op) db) !! i = Some r) ∧
  (∀ i r, students db !! i = Some r → students (db_after (run op) db) !! i = Some r) ∧
  (∀ i r, attendance db !! i = Some r →
          attendance (db_after (run op) db) !! i = Some r) ∧
  (∀ i r, timetables db !! i = Some r →
          timetables (db_after (run op) db) !! i = Some r) ∧
  (if read_only op then db_after (run op) db = db else True) ∧
  (∀ ops, extends db (run_all ops db)).
Proof.
  pose proof (run_extends op db) as Hext.
  split; [done |]. destruct Hext as (Ht & Hs & Hst & Ha & Htt).
  do 5 (split; [intros i r Hr; by eapply prefix_lookup_Some |]).
  split.
  - destruct (read_only op) eqn:Hro; [by apply run_read_only | done].
  - clear. intros ops. revert db.
    induction ops as [|op ops IH]; intros db; [apply extends_refl |].
    cbn [run_all foldl]. eapply extends_trans; [apply run_extends | apply IH].
Qed.

(** * Further properties of the handlers *)

(** ** The pairing, in both directions *)

Lemma flatten_pairs_even (m : list Z) :
  length m `mod` 2 = 0 → flatten_pairs (pairs m) = m.
Proof.
  induction m as [| a | a b m IH] using list_ind2; [done | done |].
  intros Hlen. cbn [length] in Hlen.
  replace (S (S (length m))) with (length m + 1 * 2) in Hlen by lia.
  rewrite Nat.Div0.mod_add in Hlen.
  cbn [pairs]. unfold flatten_pairs in *. rewrite bind_cons. cbn [fst snd app].
  by rewrite IH.
Qed.

(** X1: the pairing returns exactly on the sequences of even length, and then
    nothing is lost or moved: the pairs, written out in order, are the
    sequence again, and there are half as many pairs as elements.  On a
    sequence of odd length it raises [IndexError]. *)
Theorem pair_up_round_trip (m : list Z) :
  match pair_up m with
  | Return ps => length m `mod` 2 = 0 ∧ flatten_pairs ps = m ∧ length m = 2 * length ps
  | Raise e => length m `mod` 2 = 1 ∧ e = IndexError
  end.
Proof.
  pose proof (Nat.mod_upper_bound (length m) 2 ltac:(lia)) as Hlt.
  destruct (decide (length m `mod` 2 = 0)) as [Heven | Hodd].
  - rewrite pair_up_even by done.
    split; [done |]. split; [by apply flatten_pairs_even |].
    rewrite length_pairs. pose proof (Nat.div_mod_eq (length m) 2). lia.
  - rewrite pair_up_odd by lia. split; [lia | done].
Qed.

(** ** Timetables without rows and timetables written twice *)

(** X3: with no subject and teacher values at all, [create_timetable] reports
    success and writes nothing. *)
Theorem create_timetable_empty (class_name : string) (db : database) :
  create_timetable class_name [] db =
  (Return ("Timetable created for class " +:+ class_name), db).
Proof.
  rewrite create_timetable_even by done. cbn [pairs timetable_rows imap].
  rewrite app_nil_r. by destruct db.
Qed.

(** X4: the same timetable submitted twice is stored twice: the second call
    appends as many rows as the first, row for row with the same class
    name, period, subject and teacher, under ids that are larger by the
    number of pairs.  A class can so have several rows for one period. *)
Theorem create_timetable_twice (class_name : string) (m : list Z) (db : database) :
  length m `mod` 2 = 0 →
  ∃ rows1 rows2 : list TimetableDB,
    timetables (db_after (create_timetable class_name m)
                  (db_after (create_timetable class_name m) db)) =
      timetables db ++ rows1 ++ rows2 ∧
    length rows1 = length m `div` 2 ∧
    length rows2 = length m `div` 2 ∧
    ∀ k r1, rows1 !! k = Some r1 →
      rows2 !! k =
      Some (mk_TimetableDB (TimetableDB_id r1 + Z.of_nat (length m `div` 2))
              (TimetableDB_class_name r1) (TimetableDB_period r1)
              (TimetableDB_subject_id r1) (TimetableDB_teacher_id r1)).
Proof.
  intros Hlen. unfold db_after. rewrite (create_timetable_even _ _ db) by done.
  rewrite create_timetable_even by done. cbn [snd timetables].
  eexists _, _. split; [by rewrite <- app_assoc |].
  split; [by rewrite length_timetable_rows, length_pairs |].
  split; [by rewrite length_timetable_rows, length_pairs |].
  intros k r1 Hr1. rewrite fmap_app, next_rowid_rows, length_pairs.
  unfold timetable_rows in *. rewrite list_lookup_imap in *.
  destruct (pairs m !! k) as [[a b]|]; [| done].
  cbn in *. inv Hr1. cbn. do 2 f_equal. lia.
Qed.

Lemma create_timetable_twice_10A :
  ∃ rows1 rows2 : list TimetableDB,
    timetables (db_after (create_timetable class_10A [1; 1; 2; 3]%Z)
                  (db_after (create_timetable class_10A [1; 1; 2; 3]%Z) empty_database)) =
      timetables empty_database ++ rows1 ++ rows2 ∧
    length rows1 = length [1; 1; 2; 3]%Z `div` 2 ∧
    length rows2 = length [1; 1; 2; 3]%Z `div` 2 ∧
    ∀ k r1, rows1 !! k = Some r1 →
      rows2 !! k =
      Some (mk_TimetableDB (TimetableDB_id r1 + Z.of_nat (length [1; 1; 2; 3]%Z `div` 2))
              (TimetableDB_class_name r1) (TimetableDB_period r1)
              (TimetableDB_subject_id r1) (TimetableDB_teacher_id r1)).
Proof.
  apply (create_timetable_twice class_10A [1; 1; 2; 3]%Z empty_database).
  reflexivity.
Defined.

(** ** Ids count the rows *)

Lemma dense_rowids_app_l (ids : list Z) (x : Z) :
  dense_rowids (ids ++ [x]) → dense_rowids ids ∧ x = (Z.of_nat (length ids) + 1)%Z.
Proof.
  intros Hd. split.
  - intros i y Hi. apply (Hd i y). by apply lookup_app_l_Some.
  - apply (Hd (length ids) x). by rewrite list_lookup_middle.
Qed.

Lemma dense_next_rowid (ids : list Z) :
  dense_rowids ids → next_rowid ids = (Z.of_nat (length ids) + 1)%Z.
Proof.
  induction ids as [|x l IH] using rev_ind; intros Hd; [done |].
  apply dense_rowids_app_l in Hd as [Hl ->]. specialize (IH Hl).
  rewrite length_app. cbn [length].
  destruct l as [|a l']; [cbn; lia |].
  cbn [app next_rowid] in *. rewrite foldr_max_snoc. lia.
Qed.

Lemma dense_rowids_snoc (ids : list Z) :
  dense_rowids ids → dense_rowids (ids ++ [next_rowid ids]).
Proof.
  intros Hd i x [[_ Hi] | [-> <-]]%lookup_snoc_Some; [by apply Hd |].
  by apply dense_next_rowid.
Qed.

Lemma dense_rowids_rows (cn : string) (ps : list (Z * Z)) (n : nat) (ids : list Z) :
  dense_rowids ids →
  dense_rowids (ids ++ (TimetableDB_id <$> timetable_rows cn (next_rowid ids) n ps)).
Proof.
  revert n ids. induction ps as [|p ps IH]; intros n ids Hids.
  - cbn. by rewrite app_nil_r.
  - rewrite timetable_rows_cons. cbn [fmap list_fmap TimetableDB_id].
    rewrite <- next_rowid_snoc, cons_middle, app_assoc.
    apply IH. by apply dense_rowids_snoc.
Qed.

Lemma run_dense (op : operation) (db : database) :
  dense_database db → dense_database (db_after (run op) db).
Proof.
  intros (Ht & Hs & Hst & Ha & Htt).
  destruct op as [name | name tid | name grade section | cn m | now sid subj status
                 | subj | sid | now sid subj]; cbn [run].
  - unfold_handler. repeat split; try done.
    table_simpl. by apply dense_rowids_snoc.
  - unfold_handler. repeat split; try done.
    table_simpl. by apply dense_rowids_snoc.
  - unfold_handler. repeat split; try done.
    table_simpl. by apply dense_rowids_snoc.
  - unfold db_after. rewrite create_timetable_unfold.
    destruct (pair_up m) as [ps | e]; [| done].
    repeat split; try done. cbn [snd timetables]. rewrite fmap_app.
    by apply dense_rowids_rows.
  - unfold_handler. repeat split; try done.
    table_simpl. by apply dense_rowids_snoc.
  - done.
  - unfold db_after, check_schedule, mbind, M_bind, query_student_first.
    by destruct (head _).
  - unfold_handler. repeat split; try done.
    table_simpl. by apply dense_rowids_snoc.
Qed.

Lemma run_all_dense (ops : list operation) (db : database) :
  dense_database db → dense_database (run_all ops db).
Proof.
  revert db. induction ops as [|op ops IH]; intros db Hd; [done |].
  cbn [run_all foldl]. apply IH. by apply run_dense.
Qed.

Lemma empty_database_dense : dense_database empty_database.
Proof. repeat split; intros i x Hi; by destruct i. Qed.

Lemma reachable_dense (db : database) : reachable db → dense_database db.
Proof. intros [ops ->]. apply run_all_dense, empty_database_dense. Qed.

(** X5: in every database the requests can build from the empty file, the ids
    of each table are 1, 2, 3, ... in table order: the k-th row created has
    id k, ids are unique, and no id is skipped or reused. *)
Theorem reachable_ids_count_rows (db : database) :
  reachable db →
  dense_database db ∧ wf_database db ∧
  (∀ i t, teachers db !! i = Some t → TeacherDB_id t = (Z.of_nat i + 1)%Z) ∧
  (∀ i s, subjects db !! i = Some s → SubjectDB_id s = (Z.of_nat i + 1)%Z) ∧
  (∀ i s, students db !! i = Some s → StudentDB_id s = (Z.of_nat i + 1)%Z) ∧
  (∀ i r, attendance db !! i = Some r → AttendanceDB_id r = (Z.of_nat i + 1)%Z) ∧
  (∀ i r, timetables db !! i = Some r → TimetableDB_id r = (Z.of_nat i + 1)%Z).
Proof.
  intros Hr. pose proof (reachable_dense db Hr) as Hd.
  split; [done |]. split; [by apply reachable_wf |].
  destruct Hd as (Ht & Hs & Hst & Ha & Htt).
  repeat split; intros i r Hi.
  - apply (Ht i). by rewrite list_lookup_fmap, Hi.
  - apply (Hs i). by rewrite list_lookup_fmap, Hi.
  - apply (Hst i). by rewrite list_lookup_fmap, Hi.
  - apply (Ha i). by rewrite list_lookup_fmap, Hi.
  - apply (Htt i). by rewrite list_lookup_fmap, Hi.
Qed.

Lemma reachable_ids_count_rows_school :
  dense_database db_school ∧ wf_database db_school ∧
  (∀ i t, teachers db_school !! i = Some t → TeacherDB_id t = (Z.of_nat i + 1)%Z) ∧
  (∀ i s, subjects db_school !! i = Some s → SubjectDB_id s = (Z.of_nat i + 1)%Z) ∧
  (∀ i s, students db_school !! i = Some s → StudentDB_id s = (Z.of_nat i + 1)%Z) ∧
  (∀ i r, attendance db_school !! i = Some r → AttendanceDB_id r = (Z.of_nat i + 1)%Z) ∧
  (∀ i r, timetables db_school !! i = Some r → TimetableDB_id r = (Z.of_nat i + 1)%Z).
Proof.
  apply (reachable_ids_count_rows db_school).
  exists [CreateTeacher "Ada"; CreateSubject "Math" 1; CreateSubject "Art" 7;
          CreateStudent "Ana" "10" "A"; CreateStudent "Ben" "11" "B"].
  reflexivity.
Defined.

(** X6: on such a database the id a create handler reports is the number of
    rows of the table plus one. *)
Theorem create_reports_row_count (db : database) :
  reachable db →
  (∀ name, (create_teacher name db).1 =
     Return ("Teacher " +:+ name +:+ " created with ID "
             +:+ pretty (Z.of_nat (length (teachers db)) + 1)%Z)) ∧
  (∀ name teacher_id, (create_subject name teacher_id db).1 =
     Return ("Subject " +:+ name +:+ " created with ID "
             +:+ pretty (Z.of_nat (length (subjects db)) + 1)%Z
             +:+ " and assigned to teacher ID " +:+ pretty teacher_id)) ∧
  (∀ name grade section, (create_student name grade section db).1 =
     Return ("Student " +:+ name +:+ " created with ID "
             +:+ pretty (Z.of_nat (length (students db)) + 1)%Z)).
Proof.
  intros (Ht & Hs & Hst & _)%reachable_dense.
  apply dense_next_rowid in Ht, Hs, Hst.
  rewrite length_fmap in Ht. rewrite length_fmap in Hs. rewrite length_fmap in Hst.
  repeat split; intros; unfold_handler; cbn [TeacherDB_id SubjectDB_id StudentDB_id];
    by rewrite ?Ht, ?Hs, ?Hst.
Qed.

Lemma create_reports_row_count_school :
  (∀ name, (create_teacher name db_school).1 =
     Return ("Teacher " +:+ name +:+ " created with ID "
             +:+ pretty (Z.of_nat (length (teachers db_school)) + 1)%Z)) ∧
  (∀ name teacher_id, (create_subject name teacher_id db_school).1 =
     Return ("Subject " +:+ name +:+ " created with ID "
             +:+ pretty (Z.of_nat (length (subjects db_school)) + 1)%Z
             +:+ " and assigned to teacher ID " +:+ pretty teacher_id)) ∧
  (∀ name grade section, (create_student name grade section db_school).1 =
     Return ("Student " +:+ name +:+ " created with ID "
             +:+ pretty (Z.of_nat (length (students db_school)) + 1)%Z)).
Proof.
  apply (create_reports_row_count db_school).
  exists [CreateTeacher "Ada"; CreateSubject "Math" 1; CreateSubject "Art" 7;
          CreateStudent "Ana" "10" "A"; CreateStudent "Ben" "11" "B"].
  reflexivity.
Defined.

(** ** Teachers and their sessions *)

Lemma run_teachers (op : operation) (db : database) :
  teachers (db_after (run op) db) = teachers db ∨
  ∃ name, op = CreateTeacher name ∧
    teachers (db_after (run op) db) =
    teachers db ++ [mk_TeacherDB (next_rowid (TeacherDB_id <$> teachers db)) name 9].
Proof.
  destruct op as [name | name tid | name grade section | cn m | now sid subj status
                 | subj | sid | now sid subj]; cbn [run];
    try (left; reflexivity).
  - right. by exists name.
  - left. unfold db_after. rewrite create_timetable_unfold. by destruct (pair_up m).
  - left. unfold db_after, check_schedule, mbind, M_bind, query_student_first.
    by destruct (head _).
Qed.

(** X7: every teacher is stored with 9 available sessions and keeps them: no
    request, a timetable that uses the teacher included, changes the
    number. *)
Theorem available_sessions_stay_9 (db : database) :
  reachable db →
  Forall (λ t, TeacherDB_available_sessions t = 9%Z) (teachers db).
Proof.
  intros [ops ->].
  assert (Forall (λ t, TeacherDB_available_sessions t = 9%Z) (teachers empty_database))
    as Hinit by constructor.
  revert Hinit. generalize empty_database. induction ops as [|op ops IH]; intros db Hall.
  - done.
  - cbn [run_all foldl]. apply IH.
    destruct (run_teachers op db) as [-> | (name & _ & ->)]; [done |].
    apply Forall_app. split; [done |]. by repeat constructor.
Qed.

Lemma available_sessions_stay_9_school :
  Forall (λ t, TeacherDB_available_sessions t = 9%Z)
    (teachers (run_all [CreateTeacher "Ada"; CreateSubject "Math" 1;
                        CreateTimetable class_10A [1; 1; 1; 1]%Z] empty_database)).
Proof.
  apply (available_sessions_stay_9
           (run_all [CreateTeacher "Ada"; CreateSubject "Math" 1;
                     CreateTimetable class_10A [1; 1; 1; 1]%Z] empty_database)).
  by eexists.
Defined.

(** X8: what [create_teacher] and [create_subject] store is what [get_teachers]
    and [get_subjects] list next: the old list followed by the new id and
    name, the id being the one in the returned message; for a teacher, the
    dropdown choice built from it shows the name with that id.  Neither
    listing changes the database. *)
Theorem get_lists_created_rows (db : database) :
  (∀ name, ∃ (listed : list (Z * string)) (id : Z),
     get_teachers db = (Return listed, db) ∧
     (create_teacher name db).1 =
       Return ("Teacher " +:+ name +:+ " created with ID " +:+ pretty id) ∧
     get_teachers (db_after (create_teacher name) db) =
       (Return (listed ++ [(id, name)]), db_after (create_teacher name) db) ∧
     ∃ choices, teacher_choices db = (Return choices, db) ∧
       teacher_choices (db_after (create_teacher name) db) =
         (Return (choices ++ [(name +:+ " (ID: " +:+ pretty id +:+ ")", id)]),
          db_after (create_teacher name) db)) ∧
  (∀ name teacher_id, ∃ (listed : list (Z * string)) (id : Z),
     get_subjects db = (Return listed, db) ∧
     (create_subject name teacher_id db).1 =
       Return ("Subject " +:+ name +:+ " created with ID " +:+ pretty id
               +:+ " and assigned to teacher ID " +:+ pretty teacher_id) ∧
     get_subjects (db_after (create_subject name teacher_id) db) =
       (Return (listed ++ [(id, name)]), db_after (create_subject name teacher_id) db)).
Proof.
  split.
  - intros name. eexists _, _. split; [reflexivity |]. split; [reflexivity |].
    split.
    + unfold_handler. by rewrite fmap_app.
    + eexists. split; [reflexivity |].
      unfold teacher_choices. unfold_handler. by rewrite !fmap_app.
  - intros name tid. eexists _, _. split; [reflexivity |]. split; [reflexivity |].
    unfold_handler. by rewrite fmap_app.
Qed.

(** ** More on the schedule *)

Lemma join_schedule_lines (l : list SubjectDB) :
  join newline (schedule_line <$> l) = "" ∧ l = [] ∨
  ∃ rest, join newline (schedule_line <$> l) = "Su" +:+ rest.
Proof.
  destruct l as [|s [|s' l]]; [by left | right; by eexists ..].
Qed.

Lemma schedule_line_entries (l : list SubjectDB) :
  schedule_line <$> l = schedule_entry_line <$> (schedule_entry <$> l).
Proof. by rewrite <- list_fmap_compose. Qed.

Lemma check_schedule_query (student_id : Z) (db : database) :
  student_exists db student_id →
  ∃ listed, check_schedule student_id db =
            (Return (join newline (schedule_line <$> listed)), db).
Proof.
  intros [s Hs]%query_student_first_Some.
  unfold check_schedule, query_student_first. unfold mbind at 1, M_bind at 1.
  rewrite Hs. by eexists.
Qed.

(** X9: the answer "Student not found" is given exactly for the ids that no
    student carries: the schedule of an existing student is empty or starts
    with "Subject: ", whatever the subjects are called. *)
Theorem check_schedule_not_found_iff (student_id : Z) (db : database) :
  (check_schedule student_id db).1 = Return "Student not found" ↔
  ¬ student_exists db student_id.
Proof.
  split.
  - intros Hmsg Hex. apply check_schedule_query in Hex as [listed Hl].
    rewrite Hl in Hmsg. cbn [fst] in Hmsg.
    destruct (join_schedule_lines listed) as [[Hj _] | [rest Hj]];
      rewrite Hj in Hmsg; discriminate.
  - intros Hnone. unfold check_schedule, query_student_first.
    unfold mbind, M_bind. by rewrite query_student_first_None.
Qed.

Lemma taught_subjects_snoc_dangling (db : database) (s : SubjectDB) :
  SubjectDB_teacher_id s ∉ TeacherDB_id <$> teachers db →
  filter (λ s, SubjectDB_teacher_id s ∈ TeacherDB_id <$> teachers db)
    (subjects db ++ [s]) = taught_subjects db.
Proof.
  intros Hout. rewrite filter_app, filter_cons_False by done.
  by rewrite filter_nil, app_nil_r.
Qed.

(** X10: the id [create_student] assigns is unknown to [check_schedule] before
    the call and known right after it: the new student gets the schedule
    every student gets. *)
Theorem create_student_then_check_schedule (name grade section : string) (db : database) :
  wf_database db →
  let id := next_rowid (StudentDB_id <$> students db) in
  let db' := db_after (create_student name grade section) db in
  check_schedule id db = (Return "Student not found", db) ∧
  (create_student name grade section db).1 =
    Return ("Student " +:+ name +:+ " created with ID " +:+ pretty id) ∧
  check_schedule id db' =
    (Return (join newline
       (schedule_entry_line <$> (schedule_entry <$> taught_subjects db))), db').
Proof.
  intros Hwf id db'. split; [| split; [reflexivity |]].
  - unfold check_schedule, query_student_first. unfold mbind, M_bind.
    rewrite query_student_first_None; [done |]. apply next_rowid_fresh.
  - rewrite check_schedule_found.
    + do 3 f_equal. by rewrite <- list_fmap_compose.
    + by apply (run_wf (CreateStudent name grade section)).
    + unfold student_exists. subst db'. unfold_handler.
      rewrite fmap_app. apply elem_of_app. right. by left.
Qed.

Lemma create_student_then_check_schedule_school :
  let id := next_rowid (StudentDB_id <$> students db_school) in
  let db' := db_after (create_student "Cy" "10" "A") db_school in
  check_schedule id db_school = (Return "Student not found", db_school) ∧
  (create_student "Cy" "10" "A" db_school).1 =
    Return ("Student " +:+ "Cy" +:+ " created with ID " +:+ pretty id) ∧
  check_schedule id db' =
    (Return (join newline
       (schedule_entry_line <$> (schedule_entry <$> taught_subjects db_school))), db').
Proof.
  apply (create_student_then_check_schedule "Cy" "10" "A" db_school).
  vm_compute. repeat split; repeat constructor.
Defined.

(** X11: a subject may name the teacher id that is given out next.  It is not on
    the schedule while no teacher has the id, and it is on it, as the last
    entry, once the next teacher is created, whoever that teacher is. *)
Theorem subject_adopted_by_next_teacher (name teacher_name : string)
    (student_id : Z) (db : database) :
  wf_database db → student_exists db student_id →
  let teacher_id := next_rowid (TeacherDB_id <$> teachers db) in
  let db1 := db_after (create_subject name teacher_id) db in
  let db2 := db_after (create_teacher teacher_name) db1 in
  check_schedule student_id db1 =
    (Return (join newline
       (schedule_entry_line <$> (schedule_entry <$> taught_subjects db))), db1) ∧
  ∃ listed : list (string * Z),
    check_schedule student_id db2 =
      (Return (join newline (schedule_entry_line <$> listed ++ [(name, teacher_id)])),
       db2).
Proof.
  intros Hwf Hex teacher_id db1 db2.
  assert (wf_database db1) as Hwf1 by apply (run_wf (CreateSubject name teacher_id)), Hwf.
  assert (wf_database db2) as Hwf2 by apply (run_wf (CreateTeacher teacher_name)), Hwf1.
  split.
  - rewrite check_schedule_found by done. do 3 f_equal.
    rewrite <- list_fmap_compose. f_equal.
    unfold taught_subjects at 1. subst db1. unfold_handler.
    apply taught_subjects_snoc_dangling. apply next_rowid_fresh.
  - rewrite check_schedule_found by done.
    unfold taught_subjects. subst db2 db1. unfold_handler.
    rewrite filter_app, filter_cons_True, filter_nil.
    + rewrite schedule_line_entries, fmap_app. by eexists.
    + cbn [SubjectDB_teacher_id]. rewrite fmap_app. apply elem_of_app. right. by left.
Qed.

Lemma subject_adopted_by_next_teacher_school :
  let teacher_id := next_rowid (TeacherDB_id <$> teachers db_school) in
  let db1 := db_after (create_subject "Music" teacher_id) db_school in
  let db2 := db_after (create_teacher "Bob") db1 in
  check_schedule 1 db1 =
    (Return (join newline
       (schedule_entry_line <$> (schedule_entry <$> taught_subjects db_school))), db1) ∧
  ∃ listed : list (string * Z),
    check_schedule 1 db2 =
      (Return (join newline (schedule_entry_line <$> listed ++ [("Music", teacher_id)])),
       db2).
Proof.
  apply (subject_adopted_by_next_teacher "Music" "Bob" 1 db_school).
  - vm_compute. repeat split; repeat constructor.
  - vm_compute. left.
Defined.

(** ** More on the report *)

Lemma run_attendance (op : operation) (db : database) :
  attendance (db_after (run op) db) = attendance db ∨
  ∃ now student_id subject_id status,
    (op = TakeAttendance now student_id subject_id status ∨
     (op = LogAttendance now student_id subject_id ∧ status = true)) ∧
    attendance (db_after (run op) db) =
    attendance db ++ [mk_AttendanceDB (next_rowid (AttendanceDB_id <$> attendance db))
                        student_id subject_id now status].
Proof.
  destruct op as [name | name tid | name grade section | cn m | now sid subj status
                 | subj | sid | now sid subj]; cbn [run];
    try (left; reflexivity).
  - left. unfold db_after. rewrite create_timetable_unfold. by destruct (pair_up m).
  - right. exists now, sid, subj, status. split; [by left | done].
  - left. unfold db_after, check_schedule, mbind, M_bind, query_student_first.
    by destruct (head _).
  - right. exists now, sid, subj, true. split; [by right | done].
Qed.

(** X12: the report of a subject changes only when attendance is recorded for
    that subject: any other request, attendance of another subject
    included, leaves its text as it was. *)
Theorem generate_report_frame (subject_id : Z) (op : operation) (db : database) :
  records_attendance_of subject_id op = false →
  (generate_report subject_id (db_after (run op) db)).1 =
  (generate_report subject_id db).1.
Proof.
  intros Hop. rewrite !generate_report_unfold. cbn [fst]. do 4 f_equal.
  destruct (run_attendance op db) as [-> | (now & sid & subj & status & Hshape & ->)];
    [done |].
  rewrite filter_app, filter_cons_False, filter_nil, app_nil_r; [done |].
  cbn [AttendanceDB_subject_id]. intros ->.
  destruct Hshape as [-> | [-> _]]; cbn [records_attendance_of] in Hop;
    by rewrite bool_decide_eq_false in Hop.
Qed.

Lemma generate_report_frame_other_subject :
  (generate_report 2 (db_after (run (TakeAttendance morning 5 3 true)) db_school)).1 =
  (generate_report 2 db_school).1.
Proof.
  apply (generate_report_frame 2 (TakeAttendance morning 5 3 true) db_school).
  reflexivity.
Defined.

Lemma join_report_lines (l : list AttendanceDB) :
  join newline (report_line <$> l) = "" ∧ l = [] ∨
  ∃ rest, join newline (report_line <$> l) = "St" +:+ rest.
Proof.
  destruct l as [|r [|r' l]]; [by left | right; by eexists ..].
Qed.

(** X13: the report is the empty text exactly when the subject has no attendance
    row: a subject that does not exist and a subject nobody attended give
    the same answer, and no error. *)
Theorem generate_report_empty_iff (subject_id : Z) (db : database) :
  (generate_report subject_id db).1 = Return "" ↔
  ∀ r, r ∈ attendance db → AttendanceDB_subject_id r ≠ subject_id.
Proof.
  unfold generate_report, query_attendance_by_subject, mbind, M_bind, mret, M_ret.
  cbn [fst]. split.
  - intros Hempty r Hr Hsubj.
    destruct (join_report_lines
                (filter (λ r, AttendanceDB_subject_id r = subject_id) (attendance db)))
      as [[_ Hnil] | [rest Hrest]].
    + by apply (filter_nil_not_elem_of _ _ r Hnil Hsubj).
    + rewrite Hrest in Hempty. discriminate.
  - intros Hnone. replace (filter _ (attendance db)) with (@nil AttendanceDB); [done |].
    symmetry. apply elem_of_nil_inv. intros r [Hs Hr]%list_elem_of_filter.
    by apply (Hnone r).
Qed.

(** ** The timetable form *)

Lemma length_subject_teacher_dropdowns (ts ss : list (Z * string)) :
  length (subject_teacher_dropdowns ts ss) = 9.
Proof. unfold subject_teacher_dropdowns. by rewrite length_fmap. Qed.

Lemma length_pair_bind {A B : Type} (f g : A → B) (l : list A) :
  length (x ← l; [f x; g x]) = 2 * length l.
Proof.
  induction l as [|x l IH]; [done |].
  rewrite bind_cons, length_app, IH. cbn [length]. lia.
Qed.

Lemma length_timetable_dropdowns (ts ss : list (Z * string)) :
  length (tail (timetable_inputs ts ss)) = 18.
Proof.
  unfold timetable_inputs. cbn [app tail].
  by rewrite length_pair_bind, length_subject_teacher_dropdowns.
Qed.

Lemma elem_of_timetable_rows (cn : string) (first_id : Z) (n : nat) (ps : list (Z * Z))
    (r : TimetableDB) :
  r ∈ timetable_rows cn first_id n ps →
  ∃ k a b, k < length ps ∧ ps !! k = Some (a, b) ∧
    r = mk_TimetableDB (first_id + Z.of_nat k) cn (Z.of_nat (n + k)) a b.
Proof.
  intros [k Hk]%list_elem_of_lookup_1. unfold timetable_rows in Hk.
  rewrite list_lookup_imap in Hk.
  destruct (ps !! k) as [[a b]|] eqn:Hp; [| done].
  exists k, a, b. split; [by eapply lookup_lt_Some |]. split; [done |].
  cbn in Hk. by inv Hk.
Qed.

Lemma admin_portal_builds_timetable_inputs (db : database) :
  admin_portal_timetable_inputs db =
  (Return (timetable_inputs (teacher_rows db) (subject_rows db)), db).
Proof. reflexivity. Qed.

(** X14: the form [admin_portal] builds is a text box followed by eighteen
    dropdowns: for each period from 1 to 9 a subject dropdown and a teacher
    dropdown, labelled with the period and offering the subjects and the
    teachers of the database at that time.  Called with one value for each
    dropdown, [create_timetable] gets an even number of values: it never
    raises, and it writes exactly nine rows, all of the class typed in and
    with periods from 1 to 9. *)
Theorem timetable_form_never_raises (class_name : string) (values : list Z)
    (inputs : list component) (db0 db : database) :
  (admin_portal_timetable_inputs db0).1 = Return inputs →
  length values = length (tail inputs) →
  length inputs = 19 ∧
  inputs !! 0 = Some text ∧
  (∀ k, k < 9 →
     inputs !! (1 + 2 * k) =
       Some (dropdown (mk_Dropdown (choice <$> subject_rows db0)
                         ("Period " +:+ pretty (k + 1) +:+ " Subject"))) ∧
     inputs !! (2 + 2 * k) =
       Some (dropdown (mk_Dropdown (choice <$> teacher_rows db0)
                         ("Period " +:+ pretty (k + 1) +:+ " Teacher")))) ∧
  ∃ rows : list TimetableDB,
    create_timetable class_name values db =
      (Return ("Timetable created for class " +:+ class_name),
       mk_database (teachers db) (subjects db) (students db) (attendance db)
         (timetables db ++ rows)) ∧
    length rows = 9 ∧
    TimetableDB_period <$> rows = [1; 2; 3; 4; 5; 6; 7; 8; 9]%Z ∧
    ∀ r, r ∈ rows → TimetableDB_class_name r = class_name.
Proof.
  rewrite admin_portal_builds_timetable_inputs. cbn [fst]. intros [= <-].
  rewrite length_timetable_dropdowns. intros Hlen.
  split; [reflexivity |]. split; [reflexivity |]. split.
  { intros k Hk. do 9 (destruct k as [|k]; [split; reflexivity |]). lia. }
  rewrite create_timetable_even by by rewrite Hlen.
  eexists. split; [reflexivity |].
  assert (length (pairs values) = 9) as Hps by by rewrite length_pairs, Hlen.
  split; [by rewrite length_timetable_rows |]. split.
  - generalize dependent (pairs values). intros ps Hps.
    do 9 (destruct ps as [|? ps]; [discriminate Hps |]).
    destruct ps; [reflexivity | discriminate Hps].
  - intros r (k & a & b & _ & _ & ->)%elem_of_timetable_rows. done.
Qed.

Lemma timetable_form_never_raises_school :
  length (timetable_inputs (teacher_rows db_school) (subject_rows db_school)) = 19 ∧
  timetable_inputs (teacher_rows db_school) (subject_rows db_school) !! 0 = Some text ∧
  (∀ k, k < 9 →
     timetable_inputs (teacher_rows db_school) (subject_rows db_school) !! (1 + 2 * k) =
       Some (dropdown (mk_Dropdown (choice <$> subject_rows db_school)
                         ("Period " +:+ pretty (k + 1) +:+ " Subject"))) ∧
     timetable_inputs (teacher_rows db_school) (subject_rows db_school) !! (2 + 2 * k) =
       Some (dropdown (mk_Dropdown (choice <$> teacher_rows db_school)
                         ("Period " +:+ pretty (k + 1) +:+ " Teacher")))) ∧
  ∃ rows : list TimetableDB,
    create_timetable class_10A week_values db_school =
      (Return ("Timetable created for class " +:+ class_10A),
       mk_database (teachers db_school) (subjects db_school) (students db_school)
         (attendance db_school) (timetables db_school ++ rows)) ∧
    length rows = 9 ∧
    TimetableDB_period <$> rows = [1; 2; 3; 4; 5; 6; 7; 8; 9]%Z ∧
    ∀ r, r ∈ rows → TimetableDB_class_name r = class_10A.
Proof.
  apply (timetable_form_never_raises class_10A week_values
           (timetable_inputs (teacher_rows db_school) (subject_rows db_school))
           db_school db_school).
  - reflexivity.
  - reflexivity.
Defined.

Lemma chosen_pairs (ds : list (Dropdown * Dropdown)) (values : list Z) :
  chosen (p ← ds; [dropdown p.1; dropdown p.2]) values →
  ∀ k a b, pairs values !! k = Some (a, b) →
    ∃ p, ds !! k = Some p ∧
      a ∈ (Dropdown_choices p.1).*2 ∧ b ∈ (Dropdown_choices p.2).*2.
Proof.
  unfold chosen. revert values. induction ds as [|p ds IH]; intros values Hch k a b Hk.
  - apply Forall2_nil_inv_l in Hch as ->. done.
  - rewrite bind_cons in Hch. cbn [app] in Hch.
    apply Forall2_cons_inv_l in Hch as (a0 & values1 & Ha0 & Hch & ->).
    apply Forall2_cons_inv_l in Hch as (b0 & values2 & Hb0 & Hch & ->).
    cbn [pairs] in Hk. destruct k as [|k].
    + cbn in Hk. inv Hk. by exists p.
    + rewrite lookup_cons in Hk. by apply (IH values2).
Qed.

Lemma choice_values_teachers (db : database) :
  (choice <$> ((λ t, (TeacherDB_id t, TeacherDB_name t)) <$> teachers db)).*2
  = TeacherDB_id <$> teachers db.
Proof. rewrite <- !list_fmap_compose. by apply list_fmap_ext. Qed.

Lemma choice_values_subjects (db : database) :
  (choice <$> ((λ s, (SubjectDB_id s, SubjectDB_name s)) <$> subjects db)).*2
  = SubjectDB_id <$> subjects db.
Proof. rewrite <- !list_fmap_compose. by apply list_fmap_ext. Qed.

Lemma run_all_extends (ops : list operation) (db : database) :
  extends db (run_all ops db).
Proof.
  revert db. induction ops as [|op ops IH]; intros db; [apply extends_refl |].
  cbn [run_all foldl]. eapply extends_trans; [apply run_extends | apply IH].
Qed.

Lemma elem_of_fmap_prefix {A B : Type} (f : A → B) (l1 l2 : list A) (y : B) :
  l1 `prefix_of` l2 → y ∈ f <$> l1 → y ∈ f <$> l2.
Proof.
  intros [k ->] Hy. rewrite fmap_app. apply elem_of_app. by left.
Qed.

(** X15: the dropdowns offer the ids that were in the database when the page was
    built, and rows are never removed.  So when every value of a submission
    is one of the choices of its dropdown, each timetable row written, at
    whatever later time, names a subject and a teacher that exist. *)
Theorem timetable_form_references_exist (class_name : string) (values : list Z)
    (inputs : list component) (ops : list operation) (db0 : database) :
  (admin_portal_timetable_inputs db0).1 = Return inputs →
  chosen (tail inputs) values →
  ∃ rows : list TimetableDB,
    timetables (db_after (create_timetable class_name values) (run_all ops db0)) =
      timetables (run_all ops db0) ++ rows ∧
    length rows = 9 ∧
    ∀ r, r ∈ rows →
      TimetableDB_subject_id r ∈ SubjectDB_id <$> subjects (run_all ops db0) ∧
      TimetableDB_teacher_id r ∈ TeacherDB_id <$> teachers (run_all ops db0).
Proof.
  intros Hin Hch.
  unfold admin_portal_timetable_inputs, get_teachers, get_subjects, query_teachers,
    query_subjects, mbind, M_bind, mret, M_ret in Hin.
  cbn [fst] in Hin. injection Hin as <-.
  unfold timetable_inputs in Hch. cbn [app tail] in Hch.
  assert (length values = 18) as Hlen.
  { apply Forall2_length in Hch.
    by rewrite length_pair_bind, length_subject_teacher_dropdowns in Hch. }
  unfold db_after. rewrite create_timetable_even by by rewrite Hlen.
  cbn [snd timetables]. eexists. split; [reflexivity |].
  split; [by rewrite length_timetable_rows, length_pairs, Hlen |].
  intros r (k & a & b & _ & Hp & ->)%elem_of_timetable_rows.
  cbn [TimetableDB_subject_id TimetableDB_teacher_id].
  destruct (chosen_pairs _ _ Hch k a b Hp) as (p & Hds & Ha & Hb).
  unfold subject_teacher_dropdowns in Hds. rewrite list_lookup_fmap in Hds.
  destruct (range 0 9 1 !! k) as [i|]; [| done].
  cbn [fmap option_fmap option_map] in Hds. injection Hds as <-.
  cbn [fst snd Dropdown_choices] in Ha, Hb.
  rewrite choice_values_subjects in Ha. rewrite choice_values_teachers in Hb.
  destruct (run_all_extends ops db0) as (Ht & Hs & _).
  split; by eapply elem_of_fmap_prefix.
Qed.

Lemma timetable_form_references_exist_school :
  ∃ rows : list TimetableDB,
    timetables (db_after (create_timetable class_10A
                            [1; 1; 2; 1; 1; 1; 2; 1; 1; 1; 2; 1; 1; 1; 2; 1; 1; 1]%Z)
                  (run_all [CreateTeacher "Bob"] db_school)) =
      timetables (run_all [CreateTeacher "Bob"] db_school) ++ rows ∧
    length rows = 9 ∧
    ∀ r, r ∈ rows →
      TimetableDB_subject_id r
        ∈ SubjectDB_id <$> subjects (run_all [CreateTeacher "Bob"] db_school) ∧
      TimetableDB_teacher_id r
        ∈ TeacherDB_id <$> teachers (run_all [CreateTeacher "Bob"] db_school).
Proof.
  apply (timetable_form_references_exist class_10A
           [1; 1; 2; 1; 1; 1; 2; 1; 1; 1; 2; 1; 1; 1; 2; 1; 1; 1]%Z
           (timetable_inputs [(1%Z, "Ada")] [(1%Z, "Math"); (2%Z, "Art")])
           [CreateTeacher "Bob"] db_school).
  - reflexivity.
  - vm_compute. repeat constructor.
Defined.

(** ** Periods *)

Lemma run_timetables (op : operation) (db : database) :
  ∃ rows, timetables (db_after (run op) db) = timetables db ++ rows ∧
    Forall (λ r, (1 ≤ TimetableDB_period r)%Z) rows.
Proof.
  destruct op as [name | name tid | name grade section | cn m | now sid subj status
                 | subj | sid | now sid subj]; cbn [run];
    try (exists []; split; [by rewrite app_nil_r | constructor]).
  - unfold db_after. rewrite create_timetable_unfold.
    destruct (pair_up m) as [ps | e].
    + eexists. split; [reflexivity |]. apply Forall_forall.
      intros r (k & a & b & _ & _ & ->)%elem_of_timetable_rows.
      cbn [TimetableDB_period]. lia.
    + exists []. split; [by rewrite app_nil_r | constructor].
  - exists []. split; [| constructor]. rewrite app_nil_r.
    unfold db_after, check_schedule, mbind, M_bind, query_student_first.
    by destruct (head _).
Qed.

(** X16: periods are counted from 1: no timetable row with a period below 1 is
    ever stored.  There is no upper bound in the handler; the bound of 9
    comes from the form alone. *)
Theorem periods_start_at_1 (db : database) :
  reachable db →
  Forall (λ r, (1 ≤ TimetableDB_period r)%Z) (timetables db).
Proof.
  intros [ops ->].
  assert (Forall (λ r, (1 ≤ TimetableDB_period r)%Z) (timetables empty_database))
    as Hinit by constructor.
  revert Hinit. generalize empty_database. induction ops as [|op ops IH]; intros db Hall.
  - done.
  - cbn [run_all foldl]. apply IH.
    destruct (run_timetables op db) as (rows & -> & Hrows).
    apply Forall_app. by split.
Qed.

Lemma periods_start_at_1_two_classes :
  Forall (λ r, (1 ≤ TimetableDB_period r)%Z)
    (timetables (run_all [CreateTimetable class_10A [1; 1; 2; 3]%Z;
                          CreateTimetable "10B" [2; 3]%Z] empty_database)).
Proof.
  apply (periods_start_at_1
           (run_all [CreateTimetable class_10A [1; 1; 2; 3]%Z;
                     CreateTimetable "10B" [2; 3]%Z] empty_database)).
  by eexists.
Defined.
